(** * DataGuard: the anomaly-detection facade [detect_anomalies]

    A shallow embedding of [src/src/model.py].  The function works on a
    pandas [DataFrame] that it receives by reference and updates in place,
    and delegates the scoring to scikit-learn's [IsolationForest], a
    third-party estimator whose code is not part of the repository.  The
    embedding therefore has three layers:

    - [Pandas]: frames as an index plus an ordered list of labelled
      columns, with the five operations the function uses
      ([df.empty], [df[[labels]]], [df[label]], [df[label] = values],
      [Series.apply]);
    - [Sklearn]: the estimator as an interface ([fit_predict]) together
      with the documented parts of its contract, stated as predicates;
    - the store of frames and the state-and-exception monad in which
      [detect_anomalies] runs. *)

From Stdlib Require Import QArith Qround Qabs Lqa.
From stdpp Require Import gmap strings list sorting.

Local Open Scope Z_scope.

(** ** Exceptions *)

(** A Python exception is identified by the name of its class. *)
Abbreviation exn := string (only parsing).

Inductive except (A : Type) : Type :=
| Ok (a : A)
| Raise (e : exn).
Arguments Ok {A} a.
Arguments Raise {A} e.

Definition KeyError : exn := "KeyError".
Definition ValueError : exn := "ValueError".
Definition NameError : exn := "NameError".
Definition InvalidParameterError : exn := "InvalidParameterError".
Definition InsufficientDataError : exn := "InsufficientDataError".

(** ** Pandas frames *)

Module Pandas.

(** A float64: the finite values are kept exact, the three non-finite
    ones are explicit.  [detect_anomalies] does no arithmetic on them. *)
Inductive float64 : Type :=
| Finite (q : Q)
| PosInf
| NegInf
| NaN.


Inductive cell : Type :=
| CFloat (x : float64)
| CInt (z : Z)
| CBool (b : bool)
| CStr (s : string).

(** A frame: its index and its columns, a column being a label and the
    values of its [Series] in row order. *)
Record DataFrame : Type := Frame {
  df_index : list Z;                       (* row labels, in row order *)
  df_columns : list (string * list cell)   (* labelled columns, in column order *)
}.

Definition nrows (df : DataFrame) : nat := length (df_index df).
Definition labels (df : DataFrame) : list string := (df_columns df).*1.

(** Column labels are distinct and every column has one value per row.
    The operations below are those of pandas on such frames (a frame read
    from a CSV file, as the repository's are, is one). *)
Definition wf_frame (df : DataFrame) : Prop :=
  NoDup (labels df) ∧
  Forall (λ kc : string * list cell, length kc.2 = nrows df) (df_columns df).

Global Instance wf_frame_dec df : Decision (wf_frame df).
Proof. unfold wf_frame. apply _. Defined.

(** [df.empty]: true when either axis has length 0. *)
Definition empty (df : DataFrame) : bool :=
  (nrows df =? 0)%nat || (length (df_columns df) =? 0)%nat.

(** The values stored under a label (first match). *)
Fixpoint lookup_col (key : string) (cols : list (string * list cell))
  : option (list cell) :=
  match cols with
  | [] => None
  | (k, v) :: rest => if String.eqb k key then Some v else lookup_col key rest
  end.

Definition column (key : string) (df : DataFrame) : option (list cell) :=
  lookup_col key (df_columns df).

(** [df[key]] for one label: the Series, or KeyError. *)
Definition getitem (key : string) (df : DataFrame) : except (list cell) :=
  match column key df with
  | Some v => Ok v
  | None => Raise KeyError
  end.

Fixpoint select_cols (keys : list string) (cols : list (string * list cell))
  : option (list (string * list cell)) :=
  match keys with
  | [] => Some []
  | k :: ks =>
      match lookup_col k cols, select_cols ks cols with
      | Some v, Some rest => Some ((k, v) :: rest)
      | _, _ => None
      end
  end.

(** [df[[k1, ..., kn]]]: a new frame with the same index and the listed
    columns, or KeyError when a label is missing. *)
Definition getitem_cols (keys : list string) (df : DataFrame) : except DataFrame :=
  match select_cols keys (df_columns df) with
  | Some cols => Ok (Frame (df_index df) cols)
  | None => Raise KeyError
  end.

Fixpoint assign_col (key : string) (v : list cell)
  (cols : list (string * list cell)) : list (string * list cell) :=
  match cols with
  | [] => [(key, v)]
  | (k, old) :: rest =>
      if String.eqb k key then (k, v) :: rest
      else (k, old) :: assign_col key v rest
  end.

(** [df[key] = values] for an array of values: the column is replaced
    where it stands, or appended as the last column; ValueError when the
    number of values is not the number of rows.  (pandas builds a fresh
    index when the frame has no row at all; [detect_anomalies] never
    assigns to such a frame, its [df.empty] guard returns first.) *)
Definition setitem (key : string) (v : list cell) (df : DataFrame)
  : except DataFrame :=
  if (length v =? nrows df)%nat
  then Ok (Frame (df_index df) (assign_col key v (df_columns df)))
  else Raise ValueError.

(** [Series.apply(f)]. *)
Definition apply (f : cell → cell) (s : list cell) : list cell := f <$> s.

(** Python's [x == -1] on the value of a cell. *)
Definition eq_minus_one (x : cell) : bool :=
  match x with
  | CInt z => z =? -1
  | CFloat (Finite q) => Qeq_bool q (-1 # 1)
  | _ => false
  end.

End Pandas.
Export Pandas.

(** ** The estimator *)

Module Sklearn.

(** The ambient state of numpy's global random generator. *)
Abbreviation rng := N (only parsing).

(** The constructor arguments [detect_anomalies] passes. *)
Record IsolationForest : Type := Build_IsolationForest {
  contamination : Q;
  random_state : option Z
}.

(** [fit_predict] of an estimator object: it reads the training frame and
    may read and advance the global generator; it returns one integer
    label per row, or raises. *)
Record Estimator : Type := {
  fit_predict : IsolationForest → DataFrame → rng → except (list Z) * rng
}.

(** The labels are -1 (outlier) and 1 (inlier), as the docstring and the
    comment of [detect_anomalies] record. *)
Definition labels_pm1 (est : Estimator) : Prop :=
  ∀ model X g ys g',
    fit_predict est model X g = (Ok ys, g') →
    Forall (λ y, y = -1 ∨ y = 1) ys.

(** With an integer [random_state] the estimator draws from a generator
    of its own: the outcome does not depend on the global one. *)
Definition seed_determined (est : Estimator) : Prop :=
  ∀ c s X g1 g2,
    (fit_predict est (Build_IsolationForest c (Some s)) X g1).1 =
    (fit_predict est (Build_IsolationForest c (Some s)) X g2).1.

(** A contamination outside (0, 0.5] is refused when fitting starts, with
    nothing computed and nothing drawn. *)
Definition validates_contamination (est : Estimator) : Prop :=
  ∀ c s X g,
    ¬ (0 < c ∧ c <= 1 # 2)%Q →
    fit_predict est (Build_IsolationForest c s) X g = (Raise InvalidParameterError, g).

End Sklearn.
Export Sklearn.

(** ** The store and the monad *)

Abbreviation loc := positive (only parsing).

Record world : Type := World {
  heap : gmap positive DataFrame;   (* the frames, by reference *)
  np_random : N                     (* numpy's global generator *)
}.

(** A computation reads and updates the world and returns or raises;
    what it did before raising stays done. *)
Definition M (A : Type) : Type := world → except A * world.

Global Instance M_ret : MRet M := λ A a w, (Ok a, w).
Global Instance M_bind : MBind M := λ A B f m w,
  match m w with
  | (Ok a, w') => f a w'
  | (Raise e, w') => (Raise e, w')
  end.

Definition lift {A} (r : except A) : M A := λ w, (r, w).

Definition deref (r : loc) : M DataFrame := λ w,
  match heap w !! r with
  | Some df => (Ok df, w)
  | None => (Raise NameError, w)
  end.

Definition store (r : loc) (df : DataFrame) : M unit := λ w,
  (Ok tt, World (<[r := df]> (heap w)) (np_random w)).

(** [df[key] = values] on the frame behind a reference: in place. *)
Definition setitem_at (r : loc) (key : string) (v : list cell) : M unit :=
  df ← deref r;
  df' ← lift (setitem key v df);
  store r df'.

Definition getitem_at (r : loc) (key : string) : M (list cell) :=
  df ← deref r;
  lift (getitem key df).

Definition call_fit_predict (est : Estimator) (model : IsolationForest)
  (X : DataFrame) : M (list Z) := λ w,
  let '(res, g') := fit_predict est model X (np_random w) in
  (res, World (heap w) g').

(** ** [detect_anomalies] (src/src/model.py) *)

Definition default_contamination : Q := 5 # 100.

Definition detect_anomalies (est : Estimator) (df : loc) (contamination : Q)
  : M loc :=
  d ← deref df;
  if empty d then mret df
  else
    let model := Build_IsolationForest contamination (Some 42) in
    X ← lift (getitem_cols ["ventes"] d);
    ys ← call_fit_predict est model X;
    _ ← setitem_at df "anomaly_score" (CInt <$> ys);
    s ← getitem_at df "anomaly_score";
    _ ← setitem_at df "anomaly"
          (apply (λ x, CBool (if eq_minus_one x then true else false)) s);
    mret df.

(** ** A stand-in estimator

    An object with the interface of the estimator, for running
    [detect_anomalies] on concrete data: a scoring function followed by
    a choice of the highest scores.  It is not the library's estimator:
    the theorems about the program hold for every estimator, or for every
    estimator that meets a stated part of the library's contract, and
    this one only provides concrete runs. *)

Module Thresholder.

(** Rounding of an exact rational to the nearest integer, a tie to the
    even one. *)
Definition py_round (q : Q) : Z :=
  let f := Qfloor q in
  match (q - inject_Z f ?= 1 # 2)%Q with
  | Lt => f
  | Gt => f + 1
  | Eq => if Z.even f then f else f + 1
  end.

(** Insertion of an (observation, score) pair in a list ordered by
    descending score; among equal scores the inserted one goes first. *)
Fixpoint insert_desc (x : nat * Q) (l : list (nat * Q)) : list (nat * Q) :=
  match l with
  | [] => [x]
  | y :: ys =>
      if Qle_bool y.2 x.2 then x :: y :: ys else y :: insert_desc x ys
  end.

(** Stable sort by descending score: the pairs are inserted from the last
    to the first, so an earlier observation precedes a later one of the
    same score. *)
Definition sort_desc (l : list (nat * Q)) : list (nat * Q) :=
  foldr insert_desc [] l.

Definition valid_contamination (c : Q) : bool :=
  negb (Qle_bool c 0) && Qle_bool c (1 # 2).

(** The number of observations the stand-in flags. *)
Definition cutoff (c : Q) (n : nat) : nat :=
  Z.to_nat (py_round (c * inject_Z (Z.of_nat n))).

(** The choice of the stand-in: the [cutoff c n] highest scores are
    flagged, of two equal scores the earlier one first; a fraction
    outside (0, 0.5] is refused.  (The library thresholds otherwise, see
    [percentile_labels].) *)
Definition contamination_threshold (c : Q) (scores : list Q)
  : except (list bool) :=
  if valid_contamination c then
    let n := length scores in
    let top := (take (cutoff c n) (sort_desc (imap pair scores))).*1 in
    Ok ((λ i, bool_decide (i ∈ top)) <$> seq 0 n)
  else Raise InvalidParameterError.

(** The label [fit_predict] gives a flagged and an unflagged row. *)
Definition label_of_flag (b : bool) : Z := if b then -1 else 1.

(** The stand-in: the contamination is checked first, then the rows are
    scored and the chosen ones labelled -1, the others 1. *)
Definition thresholding_estimator
  (score_samples : option Z → DataFrame → rng → except (list Q) * rng)
  : Estimator :=
  {| fit_predict model X g :=
       if valid_contamination (contamination model) then
         match score_samples (random_state model) X g with
         | (Ok scores, g') =>
             match contamination_threshold (contamination model) scores with
             | Ok flags => (Ok (label_of_flag <$> flags), g')
             | Raise e => (Raise e, g')
             end
         | (Raise e, g') => (Raise e, g')
         end
       else (Raise InvalidParameterError, g) |}.

End Thresholder.
Export Thresholder.

(** ** Concrete data for running the definitions *)

Module Fixtures.

(** A stand-in scoring function: the magnitude of the first feature, a
    non-number scoring 0.  It draws nothing. *)
Definition magnitude (x : cell) : Q :=
  match x with
  | CFloat (Finite q) => Qabs q
  | CInt z => Qabs (inject_Z z)
  | _ => 0
  end.

Definition magnitude_scores (seed : option Z) (X : DataFrame) (g : rng)
  : except (list Q) * rng :=
  (Ok match df_columns X with
      | (_, v) :: _ => magnitude <$> v
      | [] => []
      end, g).

Definition magnitude_estimator : Estimator :=
  thresholding_estimator magnitude_scores.

(** A stand-in scoring function that draws: the magnitude plus a noise
    taken from a linear congruential generator, which starts from the seed
    when there is one and otherwise from the global generator, which it
    then advances. *)
Definition lcg (g : N) : N := ((1103515245 * g + 12345) mod 2147483648)%N.

Fixpoint draws (n : nat) (g : N) : list N * N :=
  match n with
  | O => ([], g)
  | S n' => let '(l, g') := draws n' (lcg g) in (lcg g :: l, g')
  end.

Definition noisy_scores (seed : option Z) (X : DataFrame) (g : rng)
  : except (list Q) * rng :=
  let col := match df_columns X with (_, v) :: _ => v | [] => [] end in
  let '(noise, g') := draws (length col) (from_option Z.to_N g seed) in
  (Ok (zip_with (λ x j, magnitude x + inject_Z (Z.of_N (j mod 8)))%Q col noise),
   match seed with Some _ => g | None => g' end).

Definition noisy_estimator : Estimator :=
  thresholding_estimator noisy_scores.

Definition ventes_frame (values : list float64) : DataFrame :=
  Frame (Z.of_nat <$> seq 0 (length values)) [("ventes", CFloat <$> values)].

Definition world_of (df : DataFrame) : world := World {[ 1%positive := df ]} 0%N.

(** Scenario A of the spec: nineteen sales of 100 and one of 1000. *)
Definition scenario_A : DataFrame :=
  ventes_frame (replicate 19 (Finite 100) ++ [Finite 1000]).

Definition two_sales : DataFrame := ventes_frame [Finite 100; Finite 1000].
Definition one_sale : DataFrame := ventes_frame [Finite 100].
Definition no_sales : DataFrame := ventes_frame [].

End Fixtures.
Export Fixtures.

Definition result_frame (out : except loc * world) : except (option DataFrame) :=
  match out with
  | (Ok r, w) => Ok (heap w !! r)
  | (Raise e, _) => Raise e
  end.

(** What a successful run leaves behind the reference: the frame with the
    labels under "anomaly_score" and their reading under "anomaly". *)
Definition flags_of (ys : list Z) : list cell := (λ y, CBool (y =? -1)) <$> ys.

Definition annotate (df : DataFrame) (ys : list Z) : DataFrame :=
  Frame (df_index df)
    (assign_col "anomaly" (flags_of ys)
       (assign_col "anomaly_score" (CInt <$> ys) (df_columns df))).

Definition set_np_random (g : N) (w : world) : world := World (heap w) g.

(** The values of the "anomaly_score" column a run leaves, as rationals
    (a run that raises, or a frame without the column, has none). *)
Definition cell_value (x : cell) : option Q :=
  match x with
  | CInt z => Some (inject_Z z)
  | CFloat (Finite q) => Some q
  | CBool b => Some (if b then 1 else 0)%Q
  | _ => None
  end.

Definition anomaly_scores (out : except loc * world) : list Q :=
  match result_frame out with
  | Ok (Some df) =>
      match column "anomaly_score" df with
      | Some v => omap cell_value v
      | None => []
      end
  | _ => []
  end.

(** [df['anomaly'].sum()], the count the callers of [detect_anomalies]
    display: the number of True. *)
Definition anomaly_sum (col : list cell) : nat :=
  sum_list ((λ x, match x with CBool true => 1 | _ => 0 end)%nat <$> col).

(** ** The loader and the statistics (src/src/data_loader.py) *)

Global Instance except_ret : MRet except := λ A a, Ok a.
Global Instance except_bind : MBind except := λ A B f m,
  match m with
  | Ok a => f a
  | Raise e => Raise e
  end.

Module Loader.

(** What [load_data] asks of pandas: [pd.read_csv] on a path, which gives
    a frame or raises, and [pd.to_datetime] on a Series, which gives the
    parsed values in row order or raises. *)
Record Reader : Type := {
  read_csv : string → except DataFrame;
  to_datetime : list cell → except (list cell)
}.

(** [pd.DataFrame()]: no row and no column. *)
Definition empty_frame : DataFrame := Frame [] [].

(** [load_data]: the body of the [try], and the handler that reports the
    exception on the standard output and returns an empty frame.  The
    second component is the exception reported, if any. *)
Definition load_data (io : Reader) (filepath : string)
  : DataFrame * option exn :=
  match (df ← read_csv io filepath;
         date ← getitem "date" df;
         parsed ← to_datetime io date;
         setitem "date" parsed df) with
  | Ok df => (df, None)
  | Raise e => (empty_frame, Some e)
  end.

(** The methods of a Series that [get_stats] calls; each gives a value or
    raises (on a column that is not numeric). *)
Record SeriesMethods : Type := {
  series_mean : list cell → except cell;
  series_median : list cell → except cell;
  series_std : list cell → except cell;
  series_min : list cell → except cell;
  series_max : list cell → except cell
}.

(** [get_stats]: the entries of the dict are evaluated in the order they
    are written, each one reading [df['ventes']] anew. *)
Definition get_stats (agg : SeriesMethods) (df : DataFrame)
  : except (gmap string cell) :=
  if empty df then Ok ∅
  else
    mean ← getitem "ventes" df ≫= series_mean agg;
    median ← getitem "ventes" df ≫= series_median agg;
    std ← getitem "ventes" df ≫= series_std agg;
    min ← getitem "ventes" df ≫= series_min agg;
    max ← getitem "ventes" df ≫= series_max agg;
    Ok (<["mean" := mean]> (<["median" := median]> (<["std" := std]>
         (<["min" := min]> (<["max" := max]> ∅))))).

End Loader.
Export Loader.

(** ** The caller (src/app.py, lines 134 to 145) *)

Module App.

(** [df[key] = x] for a scalar: one copy of it per row. *)
Definition setitem_scalar (key : string) (x : cell) (df : DataFrame)
  : DataFrame :=
  Frame (df_index df) (assign_col key (replicate (nrows df) x) (df_columns df)).

Definition setitem_scalar_at (r : loc) (key : string) (x : cell) : M unit :=
  df ← deref r;
  store r (setitem_scalar key x df).

(** "Run Model": the detection when there are more than ten rows, and
    otherwise (after a warning on the page) every row marked normal. *)
Definition run_model (est : Estimator) (df_store : loc) (contamination : Q)
  : M loc :=
  d ← deref df_store;
  if (10 <? nrows d)%nat then detect_anomalies est df_store contamination
  else
    _ ← setitem_scalar_at df_store "anomaly" (CBool false);
    _ ← setitem_scalar_at df_store "anomaly_score" (CInt 1);
    mret df_store.

(** The rows of a column (or of the index) at which the mask is True. *)
Fixpoint select_rows {A} (mask : list bool) (l : list A) : list A :=
  match mask, l with
  | b :: mask', x :: l' =>
      if b then x :: select_rows mask' l' else select_rows mask' l'
  | _, _ => []
  end.

Definition as_bool (x : cell) : option bool :=
  match x with CBool b => Some b | _ => None end.

(** [df[mask]] for a Series of the frame itself: the rows at which a
    boolean mask is True, under the same labels; a mask that is not
    boolean is read as a list of labels, none of which is a label of the
    frames here, hence KeyError. *)
Definition getitem_mask (mask : list cell) (df : DataFrame) : except DataFrame :=
  match mapM as_bool mask with
  | Some bs =>
      Ok (Frame (select_rows bs (df_index df))
            (prod_map id (select_rows bs) <$> df_columns df))
  | None => Raise KeyError
  end.

(** [df_store['anomaly'].sum()], the column being one of booleans. *)
Definition anomalies_count (df_store : DataFrame) : except nat :=
  flags ← getitem "anomaly" df_store;
  Ok (anomaly_sum flags).

(** [df_store[df_store['anomaly']].copy()]. *)
Definition anomalies_df (df_store : DataFrame) : except DataFrame :=
  mask ← getitem "anomaly" df_store;
  getitem_mask mask df_store.

End App.
Export App.

(** What "Run Model" leaves when it does not run the detection. *)
Definition marked_normal (df : DataFrame) : DataFrame :=
  setitem_scalar "anomaly_score" (CInt 1)
    (setitem_scalar "anomaly" (CBool false) df).

(** The number of True of a mask. *)
Definition count_true (bs : list bool) : nat :=
  sum_list ((λ b : bool, if b then 1 else 0)%nat <$> bs).

(** ** The library's thresholding of the scores

    How scikit-learn's [IsolationForest] turns the scores of the training
    rows into labels when the contamination is a fraction: [fit] sets
    [offset_] to [np.percentile(scores, 100 * contamination)] and
    [predict] labels -1 the rows whose score is strictly below the
    offset, 1 the others (a lower score is a more abnormal row).  The
    scoring itself, a forest of random trees, is not described here.
    Scores and contamination are exact rationals: the rounding of the
    floating-point operations is not modelled. *)

Module LibraryRule.

Fixpoint insert_asc (x : Q) (l : list Q) : list Q :=
  match l with
  | [] => [x]
  | y :: ys => if Qle_bool x y then x :: y :: ys else y :: insert_asc x ys
  end.

(** [np.sort]: ascending. *)
Definition sort_asc (l : list Q) : list Q := foldr insert_asc [] l.

(** [np.percentile(l, 100 * q)] by linear interpolation, numpy's default:
    with the values sorted, the position is h = q * (n - 1), and the
    result lies between the values at floor h and at the next index (the
    last index when there is no next), at the fraction h - floor h.  (On
    an empty array numpy raises; the estimator is never fitted on one.) *)
Definition percentile (q : Q) (l : list Q) : Q :=
  let s := sort_asc l in
  let h := (q * inject_Z (Z.of_nat (length l) - 1))%Q in
  let i := Z.to_nat (Qfloor h) in
  let lo := nth i s 0%Q in
  let hi := nth (S i) s lo in
  (lo + (h - inject_Z (Qfloor h)) * (hi - lo))%Q.

(** [s < offset]. *)
Definition below (offset s : Q) : bool := negb (Qle_bool offset s).

(** The labels of the training rows, from their scores. *)
Definition percentile_labels (c : Q) (scores : list Q) : list Z :=
  (λ s, if below (percentile c scores) s then -1 else 1) <$> scores.


(** The rank of the cutoff among n sorted scores: the ceiling of
    c * (n - 1). *)
Definition flagged_rank (c : Q) (n : nat) : nat :=
  Z.to_nat (Qceiling (c * inject_Z (Z.of_nat n - 1))).


(** An estimator that follows the rule on given scores; like the library
    it checks the contamination first and refuses a frame with no row. *)
Definition isolation_forest
    (score_samples : IsolationForest → DataFrame → N → list Q) : Estimator :=
  {| fit_predict model X g :=
       if valid_contamination (contamination model) then
         if (nrows X =? 0)%nat then (Raise ValueError, g)
         else (Ok (percentile_labels (contamination model)
                     (score_samples model X g)), g)
       else (Raise InvalidParameterError, g) |}.

(** The number of True under "anomaly" in the frame a run returns. *)
Definition flagged_in (out : except loc * world) : option nat :=
  match result_frame out with
  | Ok (Some df) => anomaly_sum <$> column "anomaly" df
  | _ => None
  end.

(** Stand-in scores: the opposite of the magnitude, so that a larger sale
    is a more abnormal one. *)
Definition opposite_magnitude (model : IsolationForest) (X : DataFrame) (g : N)
  : list Q :=
  match df_columns X with
  | (_, v) :: _ => (λ x, - magnitude x)%Q <$> v
  | [] => []
  end.


End LibraryRule.
Export LibraryRule.

(** ** Concrete data for the loader, the statistics and the caller *)

Module AppFixtures.

Definition sales_csv : DataFrame :=
  Frame [0; 1; 2]
    [("date", [CStr "2024-01-01"; CStr "2024-01-02"; CStr "2024-01-03"]);
     ("magasin", [CStr "Paris"; CStr "Lyon"; CStr "Paris"]);
     ("ventes", [CFloat (Finite 100); CFloat (Finite 250); CFloat (Finite 120)])].

Definition undated_csv : DataFrame :=
  Frame [0; 1]
    [("magasin", [CStr "Paris"; CStr "Lyon"]);
     ("ventes", [CFloat (Finite 100); CFloat (Finite 250)])].

(** A stand-in reader: two files exist; a date is parsed when it is a
    string and is kept as that string. *)
Definition toy_reader : Reader :=
  {| read_csv path :=
       if String.eqb path "ventes.csv" then Ok sales_csv
       else if String.eqb path "undated.csv" then Ok undated_csv
       else Raise "FileNotFoundError";
     to_datetime s :=
       if forallb (λ x, match x with CStr _ => true | _ => false end) s
       then Ok s else Raise ValueError |}.

(** Stand-in methods on a column of finite floats, in exact arithmetic:
    the mean for the mean and the median, the spread for the standard
    deviation, the least and the greatest value. *)
Definition finite_values (s : list cell) : except (list Q) :=
  match mapM (λ x, match x with CFloat (Finite q) => Some q | _ => None end) s with
  | Some qs => Ok qs
  | None => Raise "TypeError"
  end.

Definition q_min (a b : Q) : Q := if Qle_bool a b then a else b.
Definition q_max (a b : Q) : Q := if Qle_bool a b then b else a.

Definition fold_values (f : Q → Q → Q) (s : list cell) : except cell :=
  qs ← finite_values s;
  Ok (CFloat match qs with
             | [] => NaN
             | q :: rest => Finite (foldr f q rest)
             end).

Definition mean_value (s : list cell) : except cell :=
  qs ← finite_values s;
  Ok (CFloat match qs with
             | [] => NaN
             | _ => Finite (foldr Qplus 0%Q qs / inject_Z (Z.of_nat (length qs)))%Q
             end).

Definition spread_value (s : list cell) : except cell :=
  qs ← finite_values s;
  Ok (CFloat match qs with
             | [] => NaN
             | q :: rest => Finite (foldr q_max q rest - foldr q_min q rest)%Q
             end).

Definition toy_methods : SeriesMethods :=
  {| series_mean := mean_value;
     series_median := mean_value;
     series_std := spread_value;
     series_min := fold_values q_min;
     series_max := fold_values q_max |}.

(** Twelve sales, the last one an outlier: more than ten rows. *)
Definition twelve_sales : DataFrame :=
  ventes_frame (replicate 11 (Finite 100) ++ [Finite 1000]).

End AppFixtures.
Export AppFixtures.

(** * Properties of the frame operations *)

Section FrameFacts.

Implicit Types (key k : string) (v : list cell) (cols : list (string * list cell)).

Lemma lookup_assign_col_eq key v cols :
  lookup_col key (assign_col key v cols) = Some v.
Proof.
  induction cols as [|[k old] rest IH]; simpl.
  - by rewrite String.eqb_refl.
  - destruct (String.eqb k key) eqn:E; simpl; rewrite E; [done | exact IH].
Qed.

Lemma lookup_assign_col_ne key k v cols :
  k ≠ key → lookup_col k (assign_col key v cols) = lookup_col k cols.
Proof.
  intros Hne. induction cols as [|[k0 old] rest IH]; simpl.
  - destruct (String.eqb key k) eqn:E; [|done].
    apply String.eqb_eq in E. congruence.
  - destruct (String.eqb k0 key) eqn:E; simpl.
    + apply String.eqb_eq in E. subst k0.
      destruct (String.eqb key k) eqn:E'; [|done].
      apply String.eqb_eq in E'. congruence.
    + destruct (String.eqb k0 k); [done | exact IH].
Qed.

Lemma apply_minus_one (ys : list Z) :
  apply (λ x, CBool (if eq_minus_one x then true else false)) (CInt <$> ys)
  = flags_of ys.
Proof.
  unfold apply, flags_of. rewrite <- list_fmap_compose.
  apply list_fmap_ext. intros i y _. simpl. by destruct (y =? -1).
Qed.

End FrameFacts.

(** * The two paths of [detect_anomalies] *)

Section Run.

Context (est : Estimator).
Implicit Types (r : loc) (c : Q) (w : world) (df X : DataFrame) (ys : list Z).

(** The guard: an empty frame is returned as it is, whatever the rest. *)
Lemma detect_anomalies_empty r c w df :
  heap w !! r = Some df → empty df = true →
  detect_anomalies est r c w = (Ok r, w).
Proof.
  intros Hr He. unfold detect_anomalies, mbind, M_bind, deref.
  by rewrite Hr, He.
Qed.

(** Past the guard: the outcome is the estimator's on [df[['ventes']]],
    and the frame is written only once the labels are there. *)
Lemma detect_anomalies_nonempty r c w df :
  heap w !! r = Some df → empty df = false →
  detect_anomalies est r c w =
    match getitem_cols ["ventes"] df with
    | Raise e => (Raise e, w)
    | Ok X =>
        match fit_predict est (Build_IsolationForest c (Some 42)) X (np_random w) with
        | (Raise e, g') => (Raise e, set_np_random g' w)
        | (Ok ys, g') =>
            if (length ys =? nrows df)%nat
            then (Ok r, World (<[r := annotate df ys]> (heap w)) g')
            else (Raise ValueError, set_np_random g' w)
        end
    end.
Proof.
  intros Hr He. unfold detect_anomalies, mbind, M_bind, deref.
  rewrite Hr, He. unfold lift.
  destruct (getitem_cols ["ventes"] df) as [X|e]; [|done].
  unfold call_fit_predict.
  destruct (fit_predict est _ X (np_random w)) as [[ys|e] g']; [|done].
  unfold setitem_at, getitem_at, mbind, M_bind, deref, lift, store; simpl.
  rewrite Hr. unfold setitem. rewrite length_fmap.
  destruct (length ys =? nrows df)%nat eqn:Hlen; [|done].
  simpl. rewrite lookup_insert_eq.
  unfold getitem, column; simpl. rewrite lookup_assign_col_eq.
  rewrite lookup_insert_eq. unfold nrows at 1; simpl.
  rewrite apply_minus_one. unfold flags_of at 1. rewrite length_fmap.
  fold (nrows df). rewrite Hlen. simpl.
  by rewrite insert_insert_eq.
Qed.

End Run.

(** * Well-formedness is kept by column assignment *)

Section Assign.

Implicit Types (key k : string) (v : list cell) (cols : list (string * list cell)).

Lemma assign_col_labels key v cols :
  (assign_col key v cols).*1 =
  if bool_decide (key ∈ cols.*1) then cols.*1 else cols.*1 ++ [key].
Proof.
  induction cols as [|[k old] rest IH]; [done|].
  cbn [assign_col]. destruct (String.eqb k key) eqn:E; rewrite !fmap_cons; cbn [fst].
  - apply String.eqb_eq in E. subst k.
    rewrite bool_decide_true; [done | apply list_elem_of_here].
  - apply String.eqb_neq in E. rewrite IH.
    destruct (decide (key ∈ rest.*1)) as [Hin|Hin].
    + rewrite !bool_decide_true; [done | by apply list_elem_of_further | done].
    + rewrite !bool_decide_false; [done | | done].
      apply not_elem_of_cons. split; [congruence | done].
Qed.

Lemma assign_col_NoDup key v cols :
  NoDup cols.*1 → NoDup (assign_col key v cols).*1.
Proof.
  intros Hnd. rewrite assign_col_labels. case_bool_decide; [done|].
  apply NoDup_app. split_and!; [done | | apply NoDup_singleton].
  intros k Hk ->%list_elem_of_singleton. done.
Qed.

Lemma assign_col_lengths (n : nat) key v cols :
  length v = n →
  Forall (λ kc : string * list cell, length kc.2 = n) cols →
  Forall (λ kc : string * list cell, length kc.2 = n) (assign_col key v cols).
Proof.
  intros Hv. induction 1 as [|[k old] rest Hk Hrest IH]; simpl.
  - by repeat constructor.
  - destruct (String.eqb k key); constructor; done.
Qed.

Lemma annotate_wf (df : DataFrame) (ys : list Z) :
  wf_frame df → length ys = nrows df → wf_frame (annotate df ys).
Proof.
  intros [Hnd Hlen] Hys. split.
  - unfold labels, annotate; simpl. by do 2 apply assign_col_NoDup.
  - unfold annotate, nrows; simpl. fold (nrows df).
    apply assign_col_lengths; [by unfold flags_of; rewrite length_fmap|].
    apply assign_col_lengths; [by rewrite length_fmap | done].
Qed.

Lemma annotate_column_other (df : DataFrame) (ys : list Z) k :
  k ≠ "anomaly_score" → k ≠ "anomaly" →
  column k (annotate df ys) = column k df.
Proof.
  intros H1 H2. unfold column, annotate; simpl.
  by rewrite !lookup_assign_col_ne.
Qed.

Lemma annotate_column_score (df : DataFrame) (ys : list Z) :
  column "anomaly_score" (annotate df ys) = Some (CInt <$> ys).
Proof.
  unfold column, annotate; simpl.
  rewrite lookup_assign_col_ne; [|done]. apply lookup_assign_col_eq.
Qed.

Lemma annotate_column_flag (df : DataFrame) (ys : list Z) :
  column "anomaly" (annotate df ys) = Some (flags_of ys).
Proof. unfold column, annotate; simpl. apply lookup_assign_col_eq. Qed.

(** [df[['ventes']]] is the index and the one column, as they stand. *)
Lemma getitem_ventes (df X : DataFrame) :
  getitem_cols ["ventes"] df = Ok X →
  ∃ v, column "ventes" df = Some v ∧ X = Frame (df_index df) [("ventes", v)].
Proof.
  unfold getitem_cols, column; simpl.
  destruct (lookup_col "ventes" (df_columns df)) as [v|]; [|done].
  intros [= <-]. by exists v.
Qed.

End Assign.

(** * Outcomes of a successful run *)

Section Success.

Context (est : Estimator).
Implicit Types (r : loc) (c : Q) (w : world) (df X : DataFrame) (ys : list Z).

(** A run that returns past the guard returns the reference it was given
    and leaves the annotated frame behind it. *)
Lemma detect_anomalies_returns r c w df r' w' :
  heap w !! r = Some df → empty df = false →
  detect_anomalies est r c w = (Ok r', w') →
  ∃ X ys g',
    getitem_cols ["ventes"] df = Ok X ∧
    fit_predict est (Build_IsolationForest c (Some 42)) X (np_random w) = (Ok ys, g') ∧
    length ys = nrows df ∧
    r' = r ∧ w' = World (<[r := annotate df ys]> (heap w)) g'.
Proof.
  intros Hr He. rewrite (detect_anomalies_nonempty est r c w df Hr He).
  destruct (getitem_cols ["ventes"] df) as [X|e]; [|done].
  destruct (fit_predict est _ X (np_random w)) as [[ys|e] g'] eqn:Hfit; [|done].
  destruct (length ys =? nrows df)%nat eqn:Hlen; [|done].
  intros [= <- <-]. exists X, ys, g'.
  apply Nat.eqb_eq in Hlen. done.
Qed.

End Success.

(** * The claims *)

Section Claims.

Context (est : Estimator).
Implicit Types (r : loc) (c : Q) (w : world) (df X : DataFrame) (ys : list Z).

(** C6: for the empty dataset the detection returns the dataset it was
    given, still empty, and raises nothing; the world is as it was. *)
Theorem empty_dataset_returned r c w df :
  heap w !! r = Some df → empty df = true →
  detect_anomalies est r c w = (Ok r, w) ∧
  result_frame (detect_anomalies est r c w) = Ok (Some df).
Proof.
  intros Hr He. rewrite (detect_anomalies_empty est r c w df Hr He).
  split; [done|]. simpl. by rewrite Hr.
Qed.

(** C3: when the detection returns, the returned frame has the index of
    the input (same rows, same order, same length), every column has one
    value per row, each row keeps its input values, and past the guard the
    labels written in row order are the ones the estimator gave for the
    rows of the input's "ventes" column in that same order. *)
Theorem detect_output_aligned r c w df r' w' :
  heap w !! r = Some df → wf_frame df →
  detect_anomalies est r c w = (Ok r', w') →
  ∃ df',
    heap w' !! r' = Some df' ∧
    df_index df' = df_index df ∧
    nrows df' = nrows df ∧
    wf_frame df' ∧
    (∀ k, k ≠ "anomaly_score" → k ≠ "anomaly" → column k df' = column k df) ∧
    (empty df = false →
     ∃ v ys g',
       column "ventes" df = Some v ∧
       fit_predict est (Build_IsolationForest c (Some 42))
         (Frame (df_index df) [("ventes", v)]) (np_random w) = (Ok ys, g') ∧
       length ys = length v ∧
       column "anomaly_score" df' = Some (CInt <$> ys) ∧
       column "anomaly" df' = Some (flags_of ys)).
Proof.
  intros Hr Hwf Hrun. destruct (empty df) eqn:He.
  - rewrite (detect_anomalies_empty est r c w df Hr He) in Hrun.
    injection Hrun as <- <-. exists df. by split_and!.
  - destruct (detect_anomalies_returns est r c w df r' w' Hr He Hrun)
      as (X & ys & g' & HX & Hfit & Hlen & -> & ->).
    destruct (getitem_ventes df X HX) as (v & Hv & ->).
    exists (annotate df ys). simpl. rewrite lookup_insert_eq.
    split_and!; try done.
    + by apply annotate_wf.
    + intros k. apply annotate_column_other.
    + intros _. exists v, ys, g'. split_and!; try done.
      * destruct Hwf as [_ Hcols]. rewrite Hlen.
        unfold column in Hv. clear -Hv Hcols.
        induction Hcols as [|[k old] rest Hk _ IH]; [done|].
        simpl in Hv. destruct (String.eqb k "ventes"); [|by apply IH].
        injection Hv as <-. by symmetry.
      * apply annotate_column_score.
      * apply annotate_column_flag.
Qed.

(** C10: when the detection succeeds on a non-empty dataset, the returned
    frame has an "anomaly_score" and an "anomaly" value for every row; each
    score is -1 or 1 and the flag of a row is True exactly when its score
    is -1. *)
Theorem detect_fields_consistent r c w df r' w' :
  labels_pm1 est →
  heap w !! r = Some df → wf_frame df → empty df = false →
  detect_anomalies est r c w = (Ok r', w') →
  ∃ df' scores flags,
    heap w' !! r' = Some df' ∧
    column "anomaly_score" df' = Some scores ∧
    column "anomaly" df' = Some flags ∧
    length scores = nrows df ∧ length flags = nrows df ∧
    ∀ i s, scores !! i = Some s →
      (s = CInt (-1) ∨ s = CInt 1) ∧
      ∃ b, flags !! i = Some (CBool b) ∧ (b = true ↔ s = CInt (-1)).
Proof.
  intros Hpm Hr _ He Hrun.
  destruct (detect_anomalies_returns est r c w df r' w' Hr He Hrun)
    as (X & ys & g' & HX & Hfit & Hlen & -> & ->).
  exists (annotate df ys), (CInt <$> ys), (flags_of ys). simpl.
  rewrite lookup_insert_eq, annotate_column_score, annotate_column_flag.
  unfold flags_of. rewrite !length_fmap. split_and!; try done.
  intros i s Hs. rewrite list_lookup_fmap in Hs.
  destruct (ys !! i) as [y|] eqn:Hy; [|done]. injection Hs as <-.
  pose proof (Hpm _ _ _ _ _ Hfit) as Hall.
  rewrite Forall_lookup in Hall. specialize (Hall i y Hy).
  split; [destruct Hall as [->| ->]; auto|].
  exists (y =? -1). rewrite list_lookup_fmap, Hy. split; [done|].
  rewrite Z.eqb_eq. split; [by intros -> | by intros [= ->]].
Qed.

(** C1, as amended: when the detection succeeds on a non-empty dataset,
    the "anomaly_score" column it leaves is what the estimator's
    [fit_predict] returned on [df[['ventes']]], the label of every
    observation, -1 for an anomalous one and 1 for a normal one; so every
    score lies in [-1, 1], the lower value is the anomalous one, and no
    score is 0.5, for a dataset of two observations as for any other. *)
Theorem anomaly_scores_are_labels r c w df r' w' :
  labels_pm1 est →
  heap w !! r = Some df → wf_frame df → empty df = false →
  detect_anomalies est r c w = (Ok r', w') →
  (∃ X ys g',
     getitem_cols ["ventes"] df = Ok X ∧
     fit_predict est (Build_IsolationForest c (Some 42)) X (np_random w)
       = (Ok ys, g') ∧
     anomaly_scores (Ok r', w') = inject_Z <$> ys) ∧
  length (anomaly_scores (Ok r', w')) = nrows df ∧
  Forall (λ s, (s = -1 # 1 ∨ s = 1 # 1) ∧ -1 <= s ∧ s <= 1 ∧ ¬ s == 1 # 2)%Q
    (anomaly_scores (Ok r', w')) ∧
  ∃ df' flags,
    heap w' !! r' = Some df' ∧ column "anomaly" df' = Some flags ∧
    ∀ i s, anomaly_scores (Ok r', w') !! i = Some s →
      flags !! i = Some (CBool (Qeq_bool s (-1 # 1))).
Proof.
  intros Hpm Hr _ He Hrun.
  destruct (detect_anomalies_returns est r c w df r' w' Hr He Hrun)
    as (X & ys & g' & HX & Hfit & Hlen & -> & ->).
  pose proof (Hpm _ _ _ _ _ Hfit) as Hall.
  assert (Hsc : anomaly_scores
            (Ok r, World (<[r:=annotate df ys]> (heap w)) g') = inject_Z <$> ys).
  { unfold anomaly_scores, result_frame; simpl.
    rewrite lookup_insert_eq, annotate_column_score.
    clear. induction ys as [|y ys IH]; [done|]. csimpl. by rewrite IH. }
  split; [by exists X, ys, g'|].
  rewrite Hsc. split_and!.
  - by rewrite length_fmap.
  - rewrite Forall_fmap. eapply Forall_impl; [exact Hall|].
    intros y [-> | ->]; simpl; split_and!; auto; try done.
  - exists (annotate df ys), (flags_of ys). simpl.
    rewrite lookup_insert_eq, annotate_column_flag. split_and!; try done.
    intros i s Hs. rewrite list_lookup_fmap in Hs.
    destruct (ys !! i) as [y|] eqn:Hy; [|done]. injection Hs as <-.
    unfold flags_of. rewrite list_lookup_fmap, Hy. simpl.
    rewrite Forall_lookup in Hall.
    by destruct (Hall i y Hy) as [-> | ->].
Qed.

End Claims.

Section Effects.

Context (est : Estimator).
Implicit Types (r : loc) (c : Q) (w : world) (df X : DataFrame) (ys : list Z).

Lemma set_np_random_same w : set_np_random (np_random w) w = w.
Proof. by destruct w. Qed.

(** A frame that has the column asked for has a column at all. *)
Lemma getitem_cols_nonempty df X :
  getitem_cols ["ventes"] df = Ok X → (0 < nrows df)%nat → empty df = false.
Proof.
  intros HX Hn. destruct (getitem_ventes df X HX) as (v & Hv & _).
  unfold empty, column in *. destruct (df_columns df); [done|].
  simpl. rewrite orb_false_r. apply Nat.eqb_neq. lia.
Qed.

(** C4, as amended: a run changes at most the caller's own frame, in
    place.  A run that returns gives back the reference it was given; on
    a non-empty dataset it has added (or overwritten) the columns
    "anomaly_score" and "anomaly" of that frame and kept its index and
    every other column; on an empty dataset, or when it raises, no frame
    has changed; the other frames are never touched. *)
Theorem detect_mutation_footprint r c w df res w' :
  heap w !! r = Some df → wf_frame df →
  detect_anomalies est r c w = (res, w') →
  (∀ r0, r0 ≠ r → heap w' !! r0 = heap w !! r0) ∧
  match res with
  | Raise _ => heap w' = heap w
  | Ok r' =>
      r' = r ∧
      ∃ df',
        heap w' !! r = Some df' ∧
        df_index df' = df_index df ∧
        (∀ k, k ≠ "anomaly_score" → k ≠ "anomaly" → column k df' = column k df) ∧
        (empty df = true → heap w' = heap w) ∧
        (empty df = false →
         is_Some (column "anomaly_score" df') ∧ is_Some (column "anomaly" df'))
  end.
Proof.
  intros Hr _ Hrun. destruct (empty df) eqn:He.
  - rewrite (detect_anomalies_empty est r c w df Hr He) in Hrun.
    injection Hrun as <- <-. split; [done|]. split; [done|].
    exists df. by split_and!.
  - rewrite (detect_anomalies_nonempty est r c w df Hr He) in Hrun.
    destruct (getitem_cols ["ventes"] df) as [X|e];
      [|by injection Hrun as <- <-].
    destruct (fit_predict est _ X (np_random w)) as [[ys|e] g'];
      [|by injection Hrun as <- <-].
    destruct (length ys =? nrows df)%nat; [|by injection Hrun as <- <-].
    injection Hrun as <- <-. simpl. split.
    + intros r0 Hne. by rewrite lookup_insert_ne.
    + split; [done|]. exists (annotate df ys). rewrite lookup_insert_eq.
      split_and!; try done.
      * intros k. apply annotate_column_other.
      * intros _. by rewrite annotate_column_score, annotate_column_flag.
Qed.

(** C5: two runs on datasets of the same content with the same
    contamination (the seed is the constant 42 of the function) end the
    same way: both raise the same exception, or both return a frame, and
    the two frames are equal in every score and every flag, wherever the
    frames are stored and whatever the state of the global generator. *)
Theorem detect_deterministic r1 r2 c w1 w2 df :
  seed_determined est →
  heap w1 !! r1 = Some df → heap w2 !! r2 = Some df →
  result_frame (detect_anomalies est r1 c w1) =
  result_frame (detect_anomalies est r2 c w2).
Proof.
  intros Hseed H1 H2. destruct (empty df) eqn:He.
  - rewrite (detect_anomalies_empty est r1 c w1 df H1 He).
    rewrite (detect_anomalies_empty est r2 c w2 df H2 He).
    simpl. by rewrite H1, H2.
  - rewrite (detect_anomalies_nonempty est r1 c w1 df H1 He).
    rewrite (detect_anomalies_nonempty est r2 c w2 df H2 He).
    destruct (getitem_cols ["ventes"] df) as [X|e]; [|done].
    pose proof (Hseed c 42 X (np_random w1) (np_random w2)) as Hsame.
    destruct (fit_predict est _ X (np_random w1)) as [res1 g1].
    destruct (fit_predict est _ X (np_random w2)) as [res2 g2].
    simpl in Hsame. subst res2. destruct res1 as [ys|e]; [|done].
    destruct (length ys =? nrows df)%nat; [|done].
    simpl. by rewrite !lookup_insert_eq.
Qed.

(** C7, as amended: on a dataset of exactly one observation the function
    makes no size check and raises no error of its own; it hands the
    observation to the estimator.  When the estimator raises, the call
    raises that same exception and the dataset is untouched; when the
    estimator returns a label, the call returns the dataset with it; and
    an exception of the call is the estimator's, or the ValueError of
    pandas for a number of labels that is not the number of rows. *)
Theorem single_observation_not_guarded r c w df X :
  heap w !! r = Some df → wf_frame df → nrows df = 1%nat →
  getitem_cols ["ventes"] df = Ok X →
  (∀ e g',
     fit_predict est (Build_IsolationForest c (Some 42)) X (np_random w)
       = (Raise e, g') →
     detect_anomalies est r c w = (Raise e, set_np_random g' w)) ∧
  (∀ y g',
     fit_predict est (Build_IsolationForest c (Some 42)) X (np_random w)
       = (Ok [y], g') →
     detect_anomalies est r c w =
       (Ok r, World (<[r := annotate df [y]]> (heap w)) g')) ∧
  (∀ e w',
     detect_anomalies est r c w = (Raise e, w') →
     (fit_predict est (Build_IsolationForest c (Some 42)) X (np_random w)).1
       = Raise e ∨
     e = ValueError).
Proof.
  intros Hr _ Hn HX.
  assert (He : empty df = false) by (apply (getitem_cols_nonempty df X HX); lia).
  rewrite (detect_anomalies_nonempty est r c w df Hr He), HX.
  split_and!.
  - intros e g' ->. done.
  - intros y g' ->. by rewrite Hn.
  - intros e w'.
    destruct (fit_predict est _ X (np_random w)) as [[ys|e'] g'].
    + destruct (length ys =? nrows df)%nat; [done|]. intros [= <- _]. by right.
    + intros [= <- _]. by left.
Qed.

(** C8, as amended: on a non-empty dataset with a "ventes" column, a
    contamination outside (0, 0.5] makes the call fail with
    InvalidParameterError, the error the estimator's parameter check
    raises when fitting starts; nothing has been written then: the
    frames and the generator are as before the call. *)
Theorem invalid_contamination_rejected r c w df X :
  validates_contamination est →
  heap w !! r = Some df → empty df = false →
  getitem_cols ["ventes"] df = Ok X →
  ¬ (0 < c ∧ c <= 1 # 2)%Q →
  detect_anomalies est r c w = (Raise InvalidParameterError, w).
Proof.
  intros Hval Hr He HX Hc.
  rewrite (detect_anomalies_nonempty est r c w df Hr He), HX.
  rewrite (Hval c (Some 42) X (np_random w) Hc).
  by rewrite set_np_random_same.
Qed.


End Effects.

(** * Running the detection again *)

Section Again.

Context (est : Estimator).
Implicit Types (r : loc) (c : Q) (w : world) (df X : DataFrame) (ys : list Z).

Lemma assign_col_same (key : string) (v : list cell)
    (cols : list (string * list cell)) :
  lookup_col key cols = Some v → assign_col key v cols = cols.
Proof.
  induction cols as [|[k old] rest IH]; simpl; [done|].
  destruct (String.eqb k key); [by intros [= ->] | intros H; by rewrite IH].
Qed.

Lemma annotate_again df ys : annotate (annotate df ys) ys = annotate df ys.
Proof.
  unfold annotate at 1. simpl. unfold annotate. f_equal.
  rewrite (assign_col_same "anomaly_score").
  - apply assign_col_same, lookup_assign_col_eq.
  - rewrite lookup_assign_col_ne by done. apply lookup_assign_col_eq.
Qed.

Lemma annotate_nonempty df ys :
  empty df = false → empty (annotate df ys) = false.
Proof.
  unfold empty, nrows, annotate; simpl.
  destruct (length (df_index df) =? 0)%nat; [done|]. simpl.
  destruct (df_columns df) as [|[k v] rest]; simpl; [done|].
  destruct (String.eqb k "anomaly_score"); simpl;
    destruct (String.eqb k "anomaly"); done.
Qed.

(** X1: a second run on the dataset a first run returned finds the same
    labels and leaves every frame as the first run left it. *)
Lemma detect_anomalies_again r c w df w1 :
  seed_determined est →
  heap w !! r = Some df →
  detect_anomalies est r c w = (Ok r, w1) →
  ∃ w2, detect_anomalies est r c w1 = (Ok r, w2) ∧ heap w2 = heap w1.
Proof.
  intros Hseed Hr Hrun. destruct (empty df) eqn:He.
  - rewrite (detect_anomalies_empty est r c w df Hr He) in Hrun.
    injection Hrun as <-. exists w.
    by rewrite (detect_anomalies_empty est r c w df Hr He).
  - destruct (detect_anomalies_returns est r c w df r w1 Hr He Hrun)
      as (X & ys & g' & HX & Hfit & Hlen & _ & ->).
    destruct (getitem_ventes df X HX) as (v & Hv & ->).
    assert (Hr1 : heap (World (<[r:=annotate df ys]> (heap w)) g') !! r
                  = Some (annotate df ys)) by (simpl; apply lookup_insert_eq).
    rewrite (detect_anomalies_nonempty est r c _ _ Hr1)
      by (by apply annotate_nonempty).
    assert (HX1 : getitem_cols ["ventes"] (annotate df ys)
                  = Ok (Frame (df_index df) [("ventes", v)])).
    { unfold getitem_cols. cbn [select_cols].
      fold (column "ventes" (annotate df ys)).
      by rewrite annotate_column_other, Hv. }
    rewrite HX1. cbn [np_random].
    pose proof (Hseed c 42 (Frame (df_index df) [("ventes", v)])
                  (np_random w) g') as Hsame.
    rewrite Hfit in Hsame. simpl in Hsame.
    destruct (fit_predict est _ _ g') as [res2 g2]. simpl in Hsame. subst res2.
    replace (nrows (annotate df ys)) with (nrows df) by done.
    rewrite (proj2 (Nat.eqb_eq _ _) Hlen).
    eexists. split; [reflexivity|]. simpl.
    by rewrite annotate_again, insert_insert_eq.
Qed.

End Again.

(** * The stand-in estimator meets the estimator's contracts *)

Section ThresholdFacts.

Implicit Types (c q : Q).

Lemma valid_contamination_iff c :
  valid_contamination c = true ↔ (0 < c ∧ c <= 1 # 2)%Q.
Proof.
  unfold valid_contamination.
  rewrite andb_true_iff, negb_true_iff, Qle_bool_iff.
  rewrite <- not_true_iff_false, Qle_bool_iff. split.
  - intros [H1 H2]. split; [by apply Qnot_le_lt | done].
  - intros [H1 H2]. split; [by apply Qlt_not_le | done].
Qed.

End ThresholdFacts.

Section ThresholdingEstimator.

Context (score_samples : option Z → DataFrame → N → except (list Q) * N).

Lemma thresholding_labels_pm1 :
  labels_pm1 (thresholding_estimator score_samples).
Proof.
  intros model X g ys g'. simpl.
  destruct (valid_contamination (contamination model)); [|done].
  destruct (score_samples _ X g) as [[scores|e] g1]; [|done].
  destruct (contamination_threshold _ scores) as [bs|e]; [|done].
  intros [= <- <-]. rewrite Forall_fmap. apply Forall_true.
  intros [|]; simpl; auto.
Qed.

Lemma thresholding_validates_contamination :
  validates_contamination (thresholding_estimator score_samples).
Proof.
  intros c s X g Hc. simpl.
  destruct (valid_contamination c) eqn:E; [|done].
  apply valid_contamination_iff in E. done.
Qed.

Lemma thresholding_seed_determined :
  (∀ s X g1 g2, (score_samples (Some s) X g1).1 = (score_samples (Some s) X g2).1) →
  seed_determined (thresholding_estimator score_samples).
Proof.
  intros Hs c s X g1 g2. simpl.
  destruct (valid_contamination c); [|done].
  specialize (Hs s X g1 g2).
  destruct (score_samples (Some s) X g1) as [res1 h1].
  destruct (score_samples (Some s) X g2) as [res2 h2].
  simpl in Hs. subst res2. destruct res1 as [scores|e]; [|done].
  by destruct (contamination_threshold c scores).
Qed.

End ThresholdingEstimator.


(** * The claims on concrete data *)

Example scenario_A_flags_the_outlier :
  (λ df, column "anomaly" df) <$>
    heap (detect_anomalies magnitude_estimator 1 default_contamination
            (world_of scenario_A)).2 !! 1%positive
  = Some (Some (replicate 19 (CBool false) ++ [CBool true])).
Proof. reflexivity. Qed.

Example missing_ventes_column :
  detect_anomalies magnitude_estimator 1 default_contamination
    (world_of (Frame [0; 1] [("date", [CStr "2024-01-01"; CStr "2024-01-02"])]))
  = (Raise KeyError,
     world_of (Frame [0; 1] [("date", [CStr "2024-01-01"; CStr "2024-01-02"])])).
Proof. reflexivity. Qed.

Example rows_without_columns_are_empty :
  empty (Frame [0; 1; 2] []) = true ∧ empty (Frame [] [("ventes", [])]) = true ∧
  empty two_sales = false.
Proof. by vm_compute. Qed.

Lemma noisy_seed_determined : seed_determined noisy_estimator.
Proof.
  apply thresholding_seed_determined. intros s X g1 g2.
  unfold noisy_scores. simpl. by destruct (draws _ _).
Qed.

(** Without a seed the global generator decides the labels. *)
Example unseeded_runs_differ :
  (fit_predict noisy_estimator (Build_IsolationForest (1 # 2) None)
     (ventes_frame [Finite 100; Finite 101]) 0%N).1
  ≠ (fit_predict noisy_estimator (Build_IsolationForest (1 # 2) None)
       (ventes_frame [Finite 100; Finite 101]) 2%N).1.
Proof. by vm_compute. Qed.

(** C6 on the frame with a "ventes" column and no row. *)
Lemma empty_dataset_returned_witness :
  empty no_sales = true ∧
  detect_anomalies magnitude_estimator 1 default_contamination (world_of no_sales)
    = (Ok 1%positive, world_of no_sales).
Proof.
  split; [reflexivity|].
  apply (empty_dataset_returned magnitude_estimator 1 default_contamination
           (world_of no_sales) no_sales); reflexivity.
Defined.

(** C3 on Scenario A: twenty rows in, twenty rows out, in the same order. *)
Lemma detect_output_aligned_witness :
  ∃ df',
    result_frame (detect_anomalies magnitude_estimator 1 default_contamination
                    (world_of scenario_A)) = Ok (Some df') ∧
    df_index df' = df_index scenario_A ∧ nrows df' = 20%nat.
Proof.
  destruct (detect_output_aligned magnitude_estimator 1 default_contamination
              (world_of scenario_A) scenario_A 1
              (detect_anomalies magnitude_estimator 1 default_contamination
                 (world_of scenario_A)).2)
    as (df' & Hdf & Hidx & Hn & _).
  - reflexivity.
  - apply (bool_decide_unpack _). by vm_compute.
  - reflexivity.
  - exists df'. split_and!; [|done..].
    change (Ok (heap (detect_anomalies magnitude_estimator 1 default_contamination
                        (world_of scenario_A)).2 !! 1%positive)
            = Ok (Some df')).
    by rewrite Hdf.
Defined.

(** C10 on Scenario A. *)
Lemma detect_fields_consistent_witness :
  ∃ df' scores flags,
    result_frame (detect_anomalies magnitude_estimator 1 default_contamination
                    (world_of scenario_A)) = Ok (Some df') ∧
    column "anomaly_score" df' = Some scores ∧
    column "anomaly" df' = Some flags ∧
    length scores = 20%nat ∧ length flags = 20%nat.
Proof.
  destruct (detect_fields_consistent magnitude_estimator 1 default_contamination
              (world_of scenario_A) scenario_A 1
              (detect_anomalies magnitude_estimator 1 default_contamination
                 (world_of scenario_A)).2)
    as (df' & scores & flags & Hdf & Hs & Hf & Hls & Hlf & _).
  - apply thresholding_labels_pm1.
  - reflexivity.
  - apply (bool_decide_unpack _). by vm_compute.
  - reflexivity.
  - reflexivity.
  - exists df', scores, flags. split_and!; [|done..].
    change (Ok (heap (detect_anomalies magnitude_estimator 1 default_contamination
                        (world_of scenario_A)).2 !! 1%positive)
            = Ok (Some df')).
    by rewrite Hdf.
Defined.

(** C1: on Scenario A the scores are nineteen 1 and one -1, which is
    outside [0, 1]; on two observations, at the default contamination,
    both scores are 1 and neither is 0.5. *)
Lemma scenario_A_scores_outside_unit_interval :
  anomaly_scores (detect_anomalies magnitude_estimator 1 default_contamination
                    (world_of scenario_A))
    = (replicate 19 (1 # 1) ++ [-1 # 1])%Q ∧
  ¬ Forall (λ s, 0 <= s ∧ s <= 1)%Q
      (anomaly_scores
         (detect_anomalies magnitude_estimator 1 default_contamination
            (world_of scenario_A))) ∧
  nrows two_sales = 2%nat ∧
  anomaly_scores (detect_anomalies magnitude_estimator 1 default_contamination
                    (world_of two_sales))
    = [1 # 1; 1 # 1]%Q ∧
  ¬ Forall (λ s, s == 1 # 2)%Q
      (anomaly_scores
         (detect_anomalies magnitude_estimator 1 default_contamination
            (world_of two_sales))).
Proof.
  split; [reflexivity|].
  change (anomaly_scores
            (detect_anomalies magnitude_estimator 1 default_contamination
               (world_of scenario_A)))
    with (replicate 19 (1 # 1) ++ [-1 # 1])%Q.
  split.
  { intros H. apply Forall_app in H as [_ H].
    apply Forall_cons in H as [[H _] _]. by apply H. }
  split; [reflexivity|]. split; [reflexivity|].
  change (anomaly_scores
            (detect_anomalies magnitude_estimator 1 default_contamination
               (world_of two_sales)))
    with [1 # 1; 1 # 1]%Q.
  intros H. apply Forall_cons in H as [H _]. by apply Qeq_alt in H.
Qed.

(** C1 as amended, on Scenario A. *)
Lemma anomaly_scores_are_labels_witness :
  Forall (λ s, (s = -1 # 1 ∨ s = 1 # 1) ∧ -1 <= s ∧ s <= 1 ∧ ¬ s == 1 # 2)%Q
    (anomaly_scores
       (detect_anomalies magnitude_estimator 1 default_contamination
          (world_of scenario_A))).
Proof.
  destruct (anomaly_scores_are_labels magnitude_estimator 1 default_contamination
              (world_of scenario_A) scenario_A 1
              (detect_anomalies magnitude_estimator 1 default_contamination
                 (world_of scenario_A)).2)
    as (_ & _ & Hall & _).
  - apply thresholding_labels_pm1.
  - reflexivity.
  - apply (bool_decide_unpack _). by vm_compute.
  - reflexivity.
  - reflexivity.
  - exact Hall.
Defined.

(** C4: after a run the caller's own frame has two more columns. *)
Lemma caller_frame_mutated :
  heap (world_of two_sales) !! 1%positive = Some two_sales ∧
  labels <$> heap (detect_anomalies magnitude_estimator 1 default_contamination
                     (world_of two_sales)).2 !! 1%positive
    = Some ["ventes"; "anomaly_score"; "anomaly"] ∧
  heap (detect_anomalies magnitude_estimator 1 default_contamination
          (world_of two_sales)).2 !! 1%positive
    ≠ Some two_sales.
Proof.
  split; [reflexivity|]. split; [reflexivity|].
  intros H.
  assert (Hl : labels <$> heap (detect_anomalies magnitude_estimator 1
                                  default_contamination (world_of two_sales)).2
                            !! 1%positive
               = Some ["ventes"; "anomaly_score"; "anomaly"]) by reflexivity.
  rewrite H in Hl. discriminate Hl.
Qed.

(** C4 as amended, on the same run: the "ventes" column is as it was. *)
Lemma detect_mutation_footprint_witness :
  ∃ df',
    heap (detect_anomalies magnitude_estimator 1 default_contamination
            (world_of two_sales)).2 !! 1%positive = Some df' ∧
    df_index df' = df_index two_sales ∧
    column "ventes" df' = column "ventes" two_sales.
Proof.
  destruct (detect_mutation_footprint magnitude_estimator 1 default_contamination
              (world_of two_sales) two_sales (Ok 1%positive)
              (detect_anomalies magnitude_estimator 1 default_contamination
                 (world_of two_sales)).2)
    as [_ [_ (df' & Hdf & Hidx & Hcols & _)]].
  - reflexivity.
  - apply (bool_decide_unpack _). by vm_compute.
  - reflexivity.
  - exists df'. split_and!; [done..|]. by apply Hcols.
Defined.

(** C5: Scenario A stored at two references, with two states of the
    global generator. *)
Lemma detect_deterministic_witness :
  result_frame (detect_anomalies noisy_estimator 1 default_contamination
                  (World {[ 1%positive := scenario_A ]} 0%N))
  = result_frame (detect_anomalies noisy_estimator 7 default_contamination
                    (World {[ 7%positive := scenario_A; 1%positive := two_sales ]} 99%N)).
Proof.
  apply (detect_deterministic noisy_estimator 1 7 default_contamination
           _ _ scenario_A).
  - exact noisy_seed_determined.
  - reflexivity.
  - reflexivity.
Defined.

(** C7: a dataset of one observation is labelled, nothing is raised. *)
Lemma single_observation_accepted :
  nrows one_sale = 1%nat ∧
  result_frame (detect_anomalies magnitude_estimator 1 default_contamination
                  (world_of one_sale))
    = Ok (Some (annotate one_sale [1])) ∧
  (detect_anomalies magnitude_estimator 1 default_contamination
     (world_of one_sale)).1 ≠ Raise InsufficientDataError.
Proof. split; [reflexivity|]. split; [reflexivity|]. discriminate. Qed.

(** C7 as amended, on the same dataset. *)
Lemma single_observation_not_guarded_witness :
  detect_anomalies magnitude_estimator 1 default_contamination (world_of one_sale)
  = (Ok 1%positive, World (<[1%positive := annotate one_sale [1]]> {[ 1%positive := one_sale ]}) 0%N).
Proof.
  destruct (single_observation_not_guarded magnitude_estimator 1
              default_contamination (world_of one_sale) one_sale one_sale)
    as (_ & Hok & _).
  - reflexivity.
  - apply (bool_decide_unpack _). by vm_compute.
  - reflexivity.
  - reflexivity.
  - apply (Hok 1 0%N). reflexivity.
Defined.

(** C8: an empty dataset is returned whatever the contamination. *)
Lemma empty_dataset_any_contamination :
  ¬ (0 < 6 # 10 ∧ 6 # 10 <= 1 # 2)%Q ∧
  detect_anomalies magnitude_estimator 1 (6 # 10) (world_of no_sales)
    = (Ok 1%positive, world_of no_sales).
Proof. split; [|reflexivity]. intros [_ H]. by apply H. Qed.

(** C8 as amended: Scenario D of the spec on a dataset of two rows. *)
Lemma invalid_contamination_rejected_witness :
  detect_anomalies magnitude_estimator 1 (6 # 10) (world_of two_sales)
  = (Raise InvalidParameterError, world_of two_sales).
Proof.
  apply (invalid_contamination_rejected magnitude_estimator 1 (6 # 10)
           (world_of two_sales) two_sales two_sales).
  - apply thresholding_validates_contamination.
  - reflexivity.
  - reflexivity.
  - reflexivity.
  - intros [_ H]. by apply H.
Defined.



(** * The detection, beyond the guard and the labels *)

Section DetectMore.

Context (est : Estimator).
Implicit Types (r : loc) (c : Q) (w : world) (df X : DataFrame) (ys : list Z).

Lemma lookup_col_Some_label (key : string) (v : list cell)
    (cols : list (string * list cell)) :
  lookup_col key cols = Some v → key ∈ cols.*1.
Proof.
  induction cols as [|[k old] rest IH]; simpl; [done|].
  destruct (String.eqb k key) eqn:E.
  - apply String.eqb_eq in E. subst k. intros _. apply list_elem_of_here.
  - intros H. apply list_elem_of_further. by apply IH.
Qed.

Lemma lookup_col_None_label (key : string) (cols : list (string * list cell)) :
  lookup_col key cols = None → key ∉ cols.*1.
Proof.
  induction cols as [|[k old] rest IH]; simpl.
  - intros _. apply not_elem_of_nil.
  - destruct (String.eqb k key) eqn:E; [done|].
    apply String.eqb_neq in E. intros H.
    apply not_elem_of_cons. split; [congruence | by apply IH].
Qed.

(** X2: on a non-empty dataset without a "ventes" column the call raises
    KeyError before the estimator is consulted: no frame is written and
    the generator is not advanced, whatever the estimator and whatever
    the contamination, valid or not. *)
Theorem missing_ventes_raises_KeyError r c w df :
  heap w !! r = Some df → empty df = false →
  column "ventes" df = None →
  detect_anomalies est r c w = (Raise KeyError, w).
Proof.
  intros Hr He Hv.
  rewrite (detect_anomalies_nonempty est r c w df Hr He).
  unfold getitem_cols, column in *. simpl. by rewrite Hv.
Qed.

(** X3: when the detection returns past the guard, the labels of the
    returned frame are the labels of the input in their order, followed
    by "anomaly_score" when the input had no such column and then by
    "anomaly" when the input had no such column: a column the input had
    stays where it was. *)
Theorem detect_appends_columns r c w df r' w' :
  heap w !! r = Some df → empty df = false →
  detect_anomalies est r c w = (Ok r', w') →
  ∃ df',
    heap w' !! r' = Some df' ∧
    labels df' =
      labels df
      ++ (if bool_decide ("anomaly_score" ∈ labels df) then [] else ["anomaly_score"])
      ++ (if bool_decide ("anomaly" ∈ labels df) then [] else ["anomaly"]).
Proof.
  intros Hr He Hrun.
  destruct (detect_anomalies_returns est r c w df r' w' Hr He Hrun)
    as (X & ys & g' & HX & Hfit & Hlen & -> & ->).
  exists (annotate df ys). simpl. rewrite lookup_insert_eq. split; [done|].
  unfold labels, annotate. simpl. rewrite !assign_col_labels.
  set (L := (df_columns df).*1).
  destruct (bool_decide ("anomaly_score" ∈ L)) eqn:Es.
  - destruct (bool_decide ("anomaly" ∈ L)); simpl; by rewrite ?app_nil_r.
  - destruct (bool_decide ("anomaly" ∈ L)) eqn:Ea.
    + apply bool_decide_eq_true in Ea.
      rewrite bool_decide_true; [done|]. apply elem_of_app. by left.
    + apply bool_decide_eq_false in Ea.
      rewrite bool_decide_false; [by rewrite <- app_assoc|].
      intros [H|H%list_elem_of_singleton]%elem_of_app; [done | discriminate].
Qed.

End DetectMore.

(** * The loader and the statistics *)

Section LoaderFacts.

Context (io : Reader) (agg : SeriesMethods).
Implicit Types (df raw : DataFrame) (path : string).

Lemma assign_col_present (key : string) (v old : list cell)
    (cols : list (string * list cell)) :
  lookup_col key cols = Some old → (assign_col key v cols).*1 = cols.*1.
Proof.
  intros H. rewrite assign_col_labels, bool_decide_true; [done|].
  by eapply lookup_col_Some_label.
Qed.

(** The four steps of the [try], one after the other. *)
Lemma load_data_steps path :
  load_data io path =
    match read_csv io path with
    | Raise e => (empty_frame, Some e)
    | Ok raw =>
        match column "date" raw with
        | None => (empty_frame, Some KeyError)
        | Some date =>
            match to_datetime io date with
            | Raise e => (empty_frame, Some e)
            | Ok parsed =>
                if (length parsed =? nrows raw)%nat
                then (Frame (df_index raw)
                        (assign_col "date" parsed (df_columns raw)), None)
                else (empty_frame, Some ValueError)
            end
        end
    end.
Proof.
  unfold load_data, mbind, except_bind, getitem, setitem.
  destruct (read_csv io path) as [raw|e]; [|done].
  destruct (column "date" raw) as [date|]; [|done].
  destruct (to_datetime io date) as [parsed|e]; [|done].
  by destruct (length parsed =? nrows raw)%nat.
Qed.

(** X4: a load that reports nothing returns the frame that was read with
    its "date" column parsed: the same index, the same labels in the same
    order, the parsed dates under "date", every other column as read; and
    the frame is well formed when the one read was. *)
Theorem load_data_success path df :
  load_data io path = (df, None) →
  ∃ raw date parsed,
    read_csv io path = Ok raw ∧
    column "date" raw = Some date ∧
    to_datetime io date = Ok parsed ∧
    df_index df = df_index raw ∧
    labels df = labels raw ∧
    column "date" df = Some parsed ∧
    (∀ k, k ≠ "date" → column k df = column k raw) ∧
    (wf_frame raw → wf_frame df).
Proof.
  rewrite load_data_steps.
  destruct (read_csv io path) as [raw|e] eqn:Hread; [|done].
  destruct (column "date" raw) as [date|] eqn:Hd; [|done].
  destruct (to_datetime io date) as [parsed|e] eqn:Hp; [|done].
  destruct (length parsed =? nrows raw)%nat eqn:Hlen; [|done].
  apply Nat.eqb_eq in Hlen. intros [= <-].
  exists raw, date, parsed. split_and!; try done.
  - unfold labels; simpl. by eapply assign_col_present.
  - unfold column; simpl. apply lookup_assign_col_eq.
  - intros k Hk. unfold column; simpl. by apply lookup_assign_col_ne.
  - intros [Hnd Hcols]. split.
    + unfold labels; simpl. by apply assign_col_NoDup.
    + unfold nrows; simpl. by apply assign_col_lengths.
Qed.

(** X5: a file that is read but has no "date" column is not returned:
    the KeyError of [df['date']] is caught like any other exception, and
    the caller gets the frame with no row and no column. *)
Theorem load_data_missing_date path raw :
  read_csv io path = Ok raw → column "date" raw = None →
  load_data io path = (empty_frame, Some KeyError) ∧
  empty (load_data io path).1 = true.
Proof.
  intros Hread Hd. rewrite load_data_steps, Hread, Hd. done.
Qed.

(** X6: whatever goes wrong in a load (the read, the column, the parsing),
    the caller gets the frame with no row and no column, for which the
    statistics are the empty dict and not an error; the exception
    reported is the one of the step that failed. *)
Theorem load_data_failure path e :
  (load_data io path).2 = Some e →
  (load_data io path).1 = empty_frame ∧
  get_stats agg (load_data io path).1 = Ok ∅ ∧
  (read_csv io path = Raise e ∨
   ∃ raw, read_csv io path = Ok raw ∧
     ((column "date" raw = None ∧ e = KeyError) ∨
      ∃ date, column "date" raw = Some date ∧
        (to_datetime io date = Raise e ∨
         ∃ parsed, to_datetime io date = Ok parsed ∧
           length parsed ≠ nrows raw ∧ e = ValueError))).
Proof.
  rewrite load_data_steps.
  destruct (read_csv io path) as [raw|e0] eqn:Hread;
    [|intros [= ->]; split_and!; [done..|]; by left].
  destruct (column "date" raw) as [date|] eqn:Hd;
    [|intros [= <-]; split_and!; [done..|]; right; exists raw; split; [done|]; by left].
  destruct (to_datetime io date) as [parsed|e0] eqn:Hp.
  - destruct (length parsed =? nrows raw)%nat eqn:Hlen; [done|].
    apply Nat.eqb_neq in Hlen. intros [= <-]. split_and!; [done..|].
    right. exists raw. split; [done|]. right. exists date. split; [done|].
    right. by exists parsed.
  - intros [= ->]. split_and!; [done..|].
    right. exists raw. split; [done|]. right. exists date. split; [done|]. by left.
Qed.

(** The statistics read the frame only through [df.empty] and
    [df['ventes']]. *)
Lemma get_stats_ext df1 df2 :
  empty df1 = empty df2 → column "ventes" df1 = column "ventes" df2 →
  get_stats agg df1 = get_stats agg df2.
Proof. intros He Hv. unfold get_stats, getitem. by rewrite He, Hv. Qed.

(** X7: the statistics of an empty frame are the empty dict; a non-empty
    frame without a "ventes" column raises KeyError; and a dict returned
    for a non-empty frame is not empty: its keys are exactly mean,
    median, std, min and max, each holding what the method of that name
    gave on the "ventes" column. *)
Theorem get_stats_outcomes df :
  (empty df = true → get_stats agg df = Ok ∅) ∧
  (empty df = false → column "ventes" df = None →
   get_stats agg df = Raise KeyError) ∧
  (∀ d, empty df = false → get_stats agg df = Ok d →
     d ≠ ∅ ∧
     dom d = ({["mean"; "median"; "std"; "min"; "max"]} : gset string) ∧
     ∃ v m1 m2 m3 m4 m5,
       column "ventes" df = Some v ∧
       series_mean agg v = Ok m1 ∧ d !! "mean" = Some m1 ∧
       series_median agg v = Ok m2 ∧ d !! "median" = Some m2 ∧
       series_std agg v = Ok m3 ∧ d !! "std" = Some m3 ∧
       series_min agg v = Ok m4 ∧ d !! "min" = Some m4 ∧
       series_max agg v = Ok m5 ∧ d !! "max" = Some m5).
Proof.
  split_and!.
  - intros He. unfold get_stats. by rewrite He.
  - intros He Hv. unfold get_stats, getitem. by rewrite He, Hv.
  - intros d He. unfold get_stats, getitem. rewrite He.
    destruct (column "ventes" df) as [v|]; [|done].
    unfold mbind, except_bind.
    destruct (series_mean agg v) as [m1|] eqn:H1; [|done].
    destruct (series_median agg v) as [m2|] eqn:H2; [|done].
    destruct (series_std agg v) as [m3|] eqn:H3; [|done].
    destruct (series_min agg v) as [m4|] eqn:H4; [|done].
    destruct (series_max agg v) as [m5|] eqn:H5; [|done].
    intros [= <-]. split_and!.
    + apply insert_non_empty.
    + rewrite !dom_insert_L, dom_empty_L. set_solver.
    + exists v, m1, m2, m3, m4, m5.
      split_and!; try done;
        repeat first [apply lookup_insert_eq | rewrite lookup_insert_ne by discriminate].
Qed.

End LoaderFacts.

(** * The caller: running the model and reading the result *)

Section MaskFacts.

Lemma length_select_rows {A} (bs : list bool) (l : list A) :
  length bs = length l → length (select_rows bs l) = count_true bs.
Proof.
  revert l. induction bs as [|b bs IH]; intros [|x l]; simpl; try done.
  intros [= Hlen]. unfold count_true. csimpl. fold (count_true bs).
  destruct b; simpl; by rewrite IH.
Qed.

Lemma select_rows_none {A} (n : nat) (l : list A) :
  select_rows (replicate n false) l = [].
Proof. revert l. induction n as [|n IH]; intros [|x l]; simpl; auto. Qed.

Lemma select_rows_flags (bs : list bool) :
  select_rows bs (CBool <$> bs) = replicate (count_true bs) (CBool true).
Proof.
  induction bs as [|b bs IH]; [done|].
  unfold count_true. csimpl. fold (count_true bs).
  destruct b; simpl; by rewrite IH.
Qed.

Lemma select_rows_scores (ys : list Z) :
  select_rows ((λ y, y =? -1) <$> ys) (CInt <$> ys)
  = replicate (count_true ((λ y, y =? -1) <$> ys)) (CInt (-1)).
Proof.
  induction ys as [|y ys IH]; [done|].
  unfold count_true. csimpl. fold (count_true ((λ y, y =? -1) <$> ys)).
  destruct (y =? -1) eqn:E; simpl; rewrite IH; [|done].
  apply Z.eqb_eq in E. by subst y.
Qed.

Lemma mapM_as_bool (bs : list bool) : mapM as_bool (CBool <$> bs) = Some bs.
Proof. by apply mapM_fmap_Some. Qed.

Lemma anomaly_sum_flags (bs : list bool) :
  anomaly_sum (CBool <$> bs) = count_true bs.
Proof.
  unfold anomaly_sum, count_true. by rewrite <- list_fmap_compose.
Qed.

Lemma flags_of_mask (ys : list Z) :
  flags_of ys = CBool <$> ((λ y, y =? -1) <$> ys).
Proof. unfold flags_of. by rewrite <- list_fmap_compose. Qed.

Lemma lookup_col_select (bs : list bool) (key : string)
    (cols : list (string * list cell)) :
  lookup_col key (prod_map id (select_rows bs) <$> cols)
  = select_rows bs <$> lookup_col key cols.
Proof.
  induction cols as [|[k v] rest IH]; [done|].
  csimpl. by destruct (String.eqb k key).
Qed.

(** Taking the rows of a boolean mask keeps a frame well formed. *)
Lemma getitem_mask_wf (bs : list bool) (df : DataFrame) :
  wf_frame df → length bs = nrows df →
  wf_frame (Frame (select_rows bs (df_index df))
              (prod_map id (select_rows bs) <$> df_columns df)).
Proof.
  intros [Hnd Hcols] Hlen. split.
  - unfold labels in *. simpl. rewrite <- list_fmap_compose.
    by rewrite (list_fmap_ext _ fst (df_columns df)) by (by intros i [k v] _).
  - unfold nrows in *. simpl. rewrite Forall_fmap.
    eapply Forall_impl; [exact Hcols|]. intros [k v] Hv. simpl in *.
    rewrite !length_select_rows; [done | done | by rewrite Hv].
Qed.

End MaskFacts.

Section AppFacts.

Context (est : Estimator) (agg : SeriesMethods).
Implicit Types (r : loc) (c : Q) (w : world) (df : DataFrame) (ys : list Z).

Lemma run_model_small r c w df :
  heap w !! r = Some df → (nrows df ≤ 10)%nat →
  run_model est r c w =
    (Ok r, World (<[r := marked_normal df]> (heap w)) (np_random w)).
Proof.
  intros Hr Hn. unfold run_model, mbind, M_bind, deref. rewrite Hr.
  rewrite (proj2 (Nat.ltb_ge 10 (nrows df)) Hn).
  unfold setitem_scalar_at, mbind, M_bind, deref, store, mret, M_ret. simpl.
  rewrite Hr. simpl. rewrite lookup_insert_eq. simpl.
  by rewrite insert_insert_eq.
Qed.

Lemma run_model_large r c w df :
  heap w !! r = Some df → (10 < nrows df)%nat →
  run_model est r c w = detect_anomalies est r c w.
Proof.
  intros Hr Hn. unfold run_model, mbind, M_bind, deref at 1. rewrite Hr.
  by rewrite (proj2 (Nat.ltb_lt 10 (nrows df)) Hn).
Qed.

Lemma marked_normal_columns df :
  column "anomaly" (marked_normal df) = Some (replicate (nrows df) (CBool false)) ∧
  column "anomaly_score" (marked_normal df) = Some (replicate (nrows df) (CInt 1)) ∧
  df_index (marked_normal df) = df_index df ∧
  (∀ k, k ≠ "anomaly_score" → k ≠ "anomaly" →
        column k (marked_normal df) = column k df).
Proof.
  unfold column, marked_normal, setitem_scalar. simpl. split_and!.
  - rewrite lookup_assign_col_ne by done. apply lookup_assign_col_eq.
  - apply lookup_assign_col_eq.
  - done.
  - intros k H1 H2. by rewrite !lookup_assign_col_ne.
Qed.

(** X8: with ten rows or fewer the model is not run.  The call returns
    the frame with every row marked normal (anomaly False, anomaly_score
    1) whatever the estimator, the contamination and the columns of the
    frame; the generator is not advanced, no anomaly is counted and the
    table of anomalies has no row. *)
Theorem small_dataset_marked_normal r c w df :
  heap w !! r = Some df → (nrows df ≤ 10)%nat →
  run_model est r c w =
    (Ok r, World (<[r := marked_normal df]> (heap w)) (np_random w)) ∧
  column "anomaly" (marked_normal df) = Some (replicate (nrows df) (CBool false)) ∧
  column "anomaly_score" (marked_normal df) = Some (replicate (nrows df) (CInt 1)) ∧
  anomalies_count (marked_normal df) = Ok 0%nat ∧
  ∃ adf, anomalies_df (marked_normal df) = Ok adf ∧ nrows adf = 0%nat.
Proof.
  intros Hr Hn. destruct (marked_normal_columns df) as (Ha & Hs & Hi & _).
  split_and!; try done.
  - by apply run_model_small.
  - unfold anomalies_count, getitem, mbind, except_bind. rewrite Ha.
    f_equal. rewrite <- (fmap_replicate CBool), anomaly_sum_flags.
    unfold count_true. rewrite fmap_replicate.
    clear. induction (nrows df) as [|n IH]; [done|]. simpl. exact IH.
  - unfold anomalies_df, getitem, mbind, except_bind. rewrite Ha.
    unfold getitem_mask. rewrite <- (fmap_replicate CBool), mapM_as_bool.
    eexists. split; [reflexivity|]. unfold nrows. simpl.
    by rewrite select_rows_none.
Qed.

End AppFacts.

Section Dashboard.

Context (est : Estimator) (agg : SeriesMethods).
Implicit Types (r : loc) (c : Q) (w : world) (df : DataFrame) (ys : list Z).

Lemma assign_col_not_nil (key : string) (v : list cell)
    (cols : list (string * list cell)) :
  assign_col key v cols ≠ [].
Proof. destruct cols as [|[k old] rest]; simpl; [done|]. by destruct (String.eqb k key). Qed.

Lemma setitem_scalar_wf (key : string) (x : cell) df :
  wf_frame df → wf_frame (setitem_scalar key x df).
Proof.
  intros [Hnd Hcols]. split.
  - unfold labels, setitem_scalar; simpl. by apply assign_col_NoDup.
  - unfold setitem_scalar, nrows; simpl. fold (nrows df).
    apply assign_col_lengths; [apply length_replicate | done].
Qed.

Lemma marked_normal_empty df :
  df_columns df ≠ [] → empty (marked_normal df) = empty df.
Proof.
  intros Hc. unfold empty, nrows, marked_normal, setitem_scalar. simpl.
  f_equal.
  pose proof (assign_col_not_nil "anomaly_score"
                (replicate (length (df_index df)) (CInt 1))
                (assign_col "anomaly"
                   (replicate (length (df_index df)) (CBool false))
                   (df_columns df))) as Hne.
  destruct (assign_col _ _ _); [done|]. by destruct (df_columns df).
Qed.

(** The count and the table, for a frame whose "anomaly" column is a
    column of booleans. *)
Lemma anomalies_of_flags df (bs : list bool) :
  wf_frame df → column "anomaly" df = Some (CBool <$> bs) →
  length bs = nrows df →
  anomalies_count df = Ok (count_true bs) ∧
  ∃ adf,
    anomalies_df df = Ok adf ∧
    nrows adf = count_true bs ∧
    wf_frame adf ∧
    labels adf = labels df ∧
    ∀ k, column k adf = select_rows bs <$> column k df.
Proof.
  intros Hwf Ha Hlen. split.
  - unfold anomalies_count, getitem, mbind, except_bind. rewrite Ha.
    by rewrite anomaly_sum_flags.
  - unfold anomalies_df, getitem, mbind, except_bind. rewrite Ha.
    unfold getitem_mask. rewrite mapM_as_bool.
    eexists. split; [reflexivity|]. split_and!.
    + unfold nrows. simpl. by apply length_select_rows.
    + by apply getitem_mask_wf.
    + unfold labels. simpl. rewrite <- list_fmap_compose.
      by apply list_fmap_ext; intros i [k v] _.
    + intros k. unfold column. simpl. apply lookup_col_select.
Qed.

(** X9: whenever "Run Model" returns, on a well-formed frame that has a
    column, the two figures the page derives from it agree and never
    raise: the table of anomalies has exactly as many rows as the count
    of anomalies, under the labels of the frame, and every row of it has
    anomaly True and anomaly_score -1. *)
Theorem anomalies_table_matches_count r c w df r' w' :
  heap w !! r = Some df → wf_frame df → df_columns df ≠ [] →
  run_model est r c w = (Ok r', w') →
  ∃ df' n adf,
    heap w' !! r' = Some df' ∧
    anomalies_count df' = Ok n ∧
    anomalies_df df' = Ok adf ∧
    nrows adf = n ∧
    wf_frame adf ∧
    labels adf = labels df' ∧
    column "anomaly" adf = Some (replicate n (CBool true)) ∧
    column "anomaly_score" adf = Some (replicate n (CInt (-1))).
Proof.
  intros Hr Hwf Hc Hrun. destruct (le_lt_dec (nrows df) 10) as [Hn|Hn].
  - rewrite (run_model_small est r c w df Hr Hn) in Hrun.
    injection Hrun as <- <-.
    destruct (marked_normal_columns df) as (Ha & Hs & Hi & _).
    rewrite <- (fmap_replicate CBool) in Ha.
    destruct (anomalies_of_flags (marked_normal df) (replicate (nrows df) false))
      as (Hcount & adf & Hadf & Hrows & Hwf' & Hlab & Hcol).
    { by do 2 apply setitem_scalar_wf. }
    { done. }
    { unfold nrows. rewrite Hi. apply length_replicate. }
    assert (H0 : count_true (replicate (nrows df) false) = 0%nat).
    { unfold count_true. rewrite fmap_replicate.
      clear. induction (nrows df) as [|n IH]; [done|]. simpl. exact IH. }
    rewrite H0 in *.
    exists (marked_normal df), 0%nat, adf. simpl. rewrite lookup_insert_eq.
    split_and!; try done.
    + by rewrite Hcol, Ha; simpl; rewrite select_rows_none.
    + by rewrite Hcol, Hs; simpl; rewrite select_rows_none.
  - rewrite (run_model_large est r c w df Hr Hn) in Hrun.
    assert (He : empty df = false).
    { unfold empty. apply orb_false_iff. split.
      - apply Nat.eqb_neq. lia.
      - apply Nat.eqb_neq. by destruct (df_columns df). }
    destruct (detect_anomalies_returns est r c w df r' w' Hr He Hrun)
      as (X & ys & g' & HX & Hfit & Hlen & -> & ->).
    set (bs := (λ y, y =? -1) <$> ys).
    destruct (anomalies_of_flags (annotate df ys) bs)
      as (Hcount & adf & Hadf & Hrows & Hwf' & Hlab & Hcol).
    { by apply annotate_wf. }
    { by rewrite annotate_column_flag, flags_of_mask. }
    { unfold bs. by rewrite length_fmap. }
    exists (annotate df ys), (count_true bs), adf. simpl.
    rewrite lookup_insert_eq. split_and!; try done.
    + rewrite Hcol, annotate_column_flag, flags_of_mask. simpl.
      by rewrite select_rows_flags.
    + rewrite Hcol, annotate_column_score. simpl. unfold bs.
      by rewrite select_rows_scores.
Qed.

(** The detection leaves the statistics as they were. *)
Lemma get_stats_after_detect r c w df r' w' :
  heap w !! r = Some df →
  detect_anomalies est r c w = (Ok r', w') →
  ∃ df', heap w' !! r' = Some df' ∧ get_stats agg df' = get_stats agg df.
Proof.
  intros Hr Hrun. destruct (empty df) eqn:He.
  - rewrite (detect_anomalies_empty est r c w df Hr He) in Hrun.
    injection Hrun as <- <-. by exists df.
  - destruct (detect_anomalies_returns est r c w df r' w' Hr He Hrun)
      as (X & ys & g' & HX & Hfit & Hlen & -> & ->).
    exists (annotate df ys). simpl. rewrite lookup_insert_eq. split; [done|].
    apply get_stats_ext.
    + by rewrite He, annotate_nonempty.
    + by apply annotate_column_other.
Qed.

(** X10: running the model does not change the statistics: on a frame
    that has a column, the statistics computed after "Run Model" (the
    dict, or the exception raised) are the ones the frame had before,
    whichever branch was taken. *)
Theorem stats_unchanged_by_run_model r c w df r' w' :
  heap w !! r = Some df → df_columns df ≠ [] →
  run_model est r c w = (Ok r', w') →
  ∃ df', heap w' !! r' = Some df' ∧ get_stats agg df' = get_stats agg df.
Proof.
  intros Hr Hc Hrun. destruct (le_lt_dec (nrows df) 10) as [Hn|Hn].
  - rewrite (run_model_small est r c w df Hr Hn) in Hrun.
    injection Hrun as <- <-.
    exists (marked_normal df). simpl. rewrite lookup_insert_eq. split; [done|].
    apply get_stats_ext; [by apply marked_normal_empty|].
    by apply (marked_normal_columns df).
  - rewrite (run_model_large est r c w df Hr Hn) in Hrun.
    by eapply get_stats_after_detect.
Qed.

End Dashboard.

(** * The further properties on concrete data *)

(** X1 on two observations, with the estimator that draws. *)
Lemma detect_anomalies_again_witness :
  ∃ w2,
    detect_anomalies noisy_estimator 1 default_contamination
      (detect_anomalies noisy_estimator 1 default_contamination
         (world_of two_sales)).2 = (Ok 1%positive, w2) ∧
    heap w2 =
    heap (detect_anomalies noisy_estimator 1 default_contamination
            (world_of two_sales)).2.
Proof.
  apply (detect_anomalies_again noisy_estimator 1 default_contamination
           (world_of two_sales) two_sales).
  - exact noisy_seed_determined.
  - reflexivity.
  - reflexivity.
Defined.

(** X2 on a frame of two rows that has only a "magasin" column. *)
Lemma missing_ventes_raises_KeyError_witness :
  detect_anomalies magnitude_estimator 1 (6 # 10)
    (world_of (Frame [0; 1] [("magasin", [CStr "Paris"; CStr "Lyon"])]))
  = (Raise KeyError,
     world_of (Frame [0; 1] [("magasin", [CStr "Paris"; CStr "Lyon"])])).
Proof.
  apply (missing_ventes_raises_KeyError magnitude_estimator 1 (6 # 10) _
           (Frame [0; 1] [("magasin", [CStr "Paris"; CStr "Lyon"])]));
    reflexivity.
Defined.

(** X3 on two observations: the two columns come after "ventes". *)
Lemma detect_appends_columns_witness :
  ∃ df',
    heap (detect_anomalies magnitude_estimator 1 default_contamination
            (world_of two_sales)).2 !! 1%positive = Some df' ∧
    labels df' = ["ventes"; "anomaly_score"; "anomaly"].
Proof.
  destruct (detect_appends_columns magnitude_estimator 1 default_contamination
              (world_of two_sales) two_sales 1
              (detect_anomalies magnitude_estimator 1 default_contamination
                 (world_of two_sales)).2)
    as (df' & Hdf & Hlab).
  - reflexivity.
  - reflexivity.
  - reflexivity.
  - exists df'. split; [done|]. by rewrite Hlab.
Defined.

(** X4 on the file that exists and has its dates. *)
Lemma load_data_success_witness :
  ∃ raw,
    read_csv toy_reader "ventes.csv" = Ok raw ∧
    labels (load_data toy_reader "ventes.csv").1 = labels raw ∧
    df_index (load_data toy_reader "ventes.csv").1 = df_index raw.
Proof.
  destruct (load_data_success toy_reader "ventes.csv"
              (load_data toy_reader "ventes.csv").1)
    as (raw & date & parsed & Hread & _ & _ & Hidx & Hlab & _).
  - reflexivity.
  - by exists raw.
Defined.

(** X5 on the file that has no "date" column. *)
Lemma load_data_missing_date_witness :
  load_data toy_reader "undated.csv" = (empty_frame, Some KeyError).
Proof.
  apply (load_data_missing_date toy_reader "undated.csv" undated_csv);
    reflexivity.
Defined.

(** X6 on a file that does not exist. *)
Lemma load_data_failure_witness :
  (load_data toy_reader "absent.csv").1 = empty_frame ∧
  get_stats toy_methods (load_data toy_reader "absent.csv").1 = Ok ∅.
Proof.
  destruct (load_data_failure toy_reader toy_methods "absent.csv"
              "FileNotFoundError") as (H1 & H2 & _).
  - reflexivity.
  - by split.
Defined.

(** X8 on one observation. *)
Lemma small_dataset_marked_normal_witness :
  run_model magnitude_estimator 1 (6 # 10) (world_of one_sale)
  = (Ok 1%positive,
     World (<[1%positive := marked_normal one_sale]> {[ 1%positive := one_sale ]}) 0%N).
Proof.
  destruct (small_dataset_marked_normal magnitude_estimator 1 (6 # 10)
              (world_of one_sale) one_sale) as (Hrun & _).
  - reflexivity.
  - unfold nrows. simpl. lia.
  - exact Hrun.
Defined.

(** X9 on twelve observations: one anomaly counted, one row in the table. *)
Lemma anomalies_table_matches_count_witness :
  ∃ df' adf,
    heap (run_model magnitude_estimator 1 default_contamination
            (world_of twelve_sales)).2 !! 1%positive = Some df' ∧
    anomalies_count df' = Ok 1%nat ∧
    anomalies_df df' = Ok adf ∧ nrows adf = 1%nat.
Proof.
  destruct (anomalies_table_matches_count magnitude_estimator 1
              default_contamination (world_of twelve_sales) twelve_sales 1
              (run_model magnitude_estimator 1 default_contamination
                 (world_of twelve_sales)).2)
    as (df' & n & adf & Hdf & Hcount & Hadf & Hrows & _).
  - reflexivity.
  - apply (bool_decide_unpack _). by vm_compute.
  - discriminate.
  - reflexivity.
  - exists df', adf.
    assert (Hn : n = 1%nat).
    { assert (H : Some df' = Some (annotate twelve_sales
                                     (replicate 11 1 ++ [-1])))
        by (rewrite <- Hdf; reflexivity).
      injection H as ->. vm_compute in Hcount. by injection Hcount as <-. }
    subst n. split_and!; [done | by rewrite Hcount, Hn | done | done].
Defined.

(** X10 on twelve observations. *)
Lemma stats_unchanged_by_run_model_witness :
  ∃ df',
    heap (run_model magnitude_estimator 1 default_contamination
            (world_of twelve_sales)).2 !! 1%positive = Some df' ∧
    get_stats toy_methods df' = get_stats toy_methods twelve_sales.
Proof.
  apply (stats_unchanged_by_run_model magnitude_estimator toy_methods 1
           default_contamination (world_of twelve_sales) twelve_sales 1).
  - reflexivity.
  - discriminate.
  - reflexivity.
Defined.

Example toy_stats_of_the_sales :
  get_stats toy_methods sales_csv
  = Ok (<["mean" := CFloat (Finite (470 # 3))]>
         (<["median" := CFloat (Finite (470 # 3))]>
           (<["std" := CFloat (Finite (150 # 1))]>
             (<["min" := CFloat (Finite (100 # 1))]>
               (<["max" := CFloat (Finite (250 # 1))]> ∅))))).
Proof. by vm_compute. Qed.

(** * The library's rule: how many rows are strictly below the offset *)

Section PercentileFacts.

Implicit Types (c q x t : Q) (l s scores : list Q).

















End PercentileFacts.

(** * The number of rows flagged *)

Section Count.

Variable est : Estimator.
Variable score_samples : IsolationForest → DataFrame → N → list Q.




End Count.





(** The rule on Scenario A: the one sale of 1000 is below the offset, the
    nineteen equal sales are not. *)
Example scenario_A_by_the_library_rule :
  anomaly_scores (detect_anomalies (isolation_forest opposite_magnitude) 1
                    default_contamination (world_of scenario_A))
  = (replicate 19 (1 # 1) ++ [-1 # 1])%Q.
Proof. reflexivity. Qed.

(** Ten distinct sales at the default contamination: one is flagged, the
    ceiling of 0.05 * 9. *)
Example ten_sales_one_flagged :
  flagged_in (detect_anomalies (isolation_forest opposite_magnitude) 1
                default_contamination
                (world_of (ventes_frame
                   (Finite <$> [100; 101; 102; 103; 104; 105; 106; 107; 108; 1000]%Q))))
  = Some 1%nat ∧
  flagged_rank default_contamination 10 = 1%nat.
Proof. split; reflexivity. Qed.

(** Equal scores are never strictly below their percentile: no row is
    flagged, whatever the contamination. *)
Example tied_scores_none_flagged :
  percentile_labels (1 # 2) [-3 # 1; -3 # 1]%Q = [1; 1] ∧
  percentile_labels (5 # 100) [-3 # 1; -3 # 1]%Q = [1; 1].
Proof. split; reflexivity. Qed.
